(** * Verification of the wakacje.pl opinion crawler (src/scrap_data.py)

    A shallow embedding of the crawler half of the repository:
    [fetch_page], [parse_hotel_links], [extract_opinions],
    [scrape_hotel_opinions] and [main].  HTML documents are modelled as the
    trees BeautifulSoup builds, the web site as a total function from URLs to
    an optional parsed page ([None] is a [requests.RequestException] caught by
    [fetch_page]), Python exceptions that escape as an [outcome], and the
    unbounded [while] loop of the pagination walk with explicit fuel.
    A character is Rocq's 8-bit [ascii], read as a Unicode code point
    0-255 (Latin-1); character classes follow Python's on those code
    points. *)

From Stdlib Require Import Strings.String Strings.Ascii List ZArith Lia Bool.
Import ListNotations.
Open Scope string_scope.
#[local] Set Warnings "-register-all".

(* ------------------------------------------------------------------ *)
(** ** Python string primitives *)

Module Py.

(** [s.split(c)] for a one-character separator: every occurrence splits,
    so the result always has one more element than there are separators. *)
Fixpoint split (c : ascii) (s : string) : list string :=
  match s with
  | EmptyString => [EmptyString]
  | String a r =>
      let parts := split c r in
      if ascii_dec a c then EmptyString :: parts
      else match parts with
           | p :: ps => String a p :: ps
           | [] => [String a EmptyString]
           end
  end.

(** [sep.join(l)]. *)
Fixpoint join (sep : string) (l : list string) : string :=
  match l with
  | [] => EmptyString
  | [x] => x
  | x :: r => x ++ sep ++ join sep r
  end.

(** Position of the last occurrence of [c] in [s], if any. *)
Fixpoint rfind_nat (s : string) (c : ascii) : option nat :=
  match s with
  | EmptyString => None
  | String a r =>
      match rfind_nat r c with
      | Some i => Some (S i)
      | None => if ascii_dec a c then Some 0 else None
      end
  end.

(** [s.rfind(c)]: the index of the last [c], or [-1]. *)
Definition rfind (s : string) (c : ascii) : Z :=
  match rfind_nat s c with
  | Some i => Z.of_nat i
  | None => (-1)%Z
  end.

(** Python's normalisation of a slice bound against a length. *)
Definition slice_bound (len : nat) (k : Z) : nat :=
  if (k <? 0)%Z then Z.to_nat (Z.max 0 (Z.of_nat len + k))
  else Nat.min (Z.to_nat k) len.

(** [s[:k]] *)
Definition slice_to (s : string) (k : Z) : string :=
  substring 0 (slice_bound (String.length s) k) s.

(** [s[k:]] *)
Definition slice_from (s : string) (k : Z) : string :=
  let b := slice_bound (String.length s) k in
  substring b (String.length s - b) s.

(** [c in s] for a single character. *)
Fixpoint contains (c : ascii) (s : string) : bool :=
  match s with
  | EmptyString => false
  | String a r => if ascii_dec a c then true else contains c r
  end.

End Py.

(* ------------------------------------------------------------------ *)
(** ** The link rewriting of [parse_hotel_links] (lines 56-59) *)

Definition opinions_prefix : string := "https://www.wakacje.pl/opinie/hotele/".

(** The body of the [for link in offer_links] loop, for an anchor whose
    [href] is [href]:
<<
    parts = link.get("href").split("/")
    url = "https://www.wakacje.pl/opinie/hotele/" + "/".join(parts[3:])
    index_href = url.rfind("-")
    urls.append(url[: index_href + 1] + "h" + url[index_href + 1 :])
>> *)
Definition hotel_review_url (href : string) : string :=
  let parts := Py.split "/"%char href in
  let url := opinions_prefix ++ Py.join "/" (skipn 3 parts) in
  let index_href := Py.rfind url "-"%char in
  Py.slice_to url (index_href + 1) ++ "h" ++ Py.slice_from url (index_href + 1).

(** The rejoined remainder of an href: its segments after the first three. *)
Definition href_remainder (href : string) : string :=
  Py.join "/" (skipn 3 (Py.split "/"%char href)).

(* ------------------------------------------------------------------ *)
(** ** Parsed documents, as BeautifulSoup builds them *)

(** A node of the parse tree: a text string ([NavigableString]) or a tag
    with its name, its [class] values (BeautifulSoup keeps [class] as a
    list of strings), its other attributes and its children. *)
Inductive node : Type :=
| Text (s : string)
| Elem (tag : string) (cls : list string) (attrs : list (string * string))
       (kids : list node).

(** [n.descendants]: every node below [n], in document (pre-)order. *)
Fixpoint descendants (n : node) : list node :=
  match n with
  | Text _ => []
  | Elem _ _ _ kids =>
      (fix go (l : list node) : list node :=
         match l with
         | [] => []
         | k :: r => k :: (descendants k ++ go r)%list
         end) kids
  end.

(** The filter of [find]/[find_all] called as [(name, class_=cls)];
    [class_] matches when it is one of the tag's class values. *)
Definition matches (name : string) (cls : option string) (n : node) : bool :=
  match n with
  | Text _ => false
  | Elem t cs _ _ =>
      String.eqb t name &&
      match cls with
      | None => true
      | Some c => existsb (String.eqb c) cs
      end
  end.

(** [n.find_all(name, class_=cls)] *)
Definition find_all (name : string) (cls : option string) (n : node) : list node :=
  filter (matches name cls) (descendants n).

(** [n.find(name, class_=cls)]: the first match, or [None]. *)
Definition find (name : string) (cls : option string) (n : node) : option node :=
  hd_error (find_all name cls n).

(** [n.get(k)] *)
Definition get_attr (k : string) (n : node) : option string :=
  match n with
  | Text _ => None
  | Elem _ _ attrs _ =>
      match List.find (fun kv => String.eqb (fst kv) k) attrs with
      | Some kv => Some (snd kv)
      | None => None
      end
  end.

(** The text strings below [n], in document order. *)
Definition strings (n : node) : list string :=
  flat_map (fun d => match d with Text s => [s] | Elem _ _ _ _ => [] end)
           (descendants n).

(** Python's [str.isspace] on a code point below 256: 9-13, 28-32,
    0x85 (NEL) and 0xA0 (no-break space). *)
Definition is_space (a : ascii) : bool :=
  let k := nat_of_ascii a in
  (Nat.eqb k 32) || ((9 <=? k) && (k <=? 13))%nat || ((28 <=? k) && (k <=? 31))%nat ||
  Nat.eqb k 133 || Nat.eqb k 160.

Fixpoint lstrip (s : string) : string :=
  match s with
  | EmptyString => EmptyString
  | String a r => if is_space a then lstrip r else s
  end.

Fixpoint rstrip (s : string) : string :=
  match s with
  | EmptyString => EmptyString
  | String a r =>
      let r' := rstrip r in
      if is_space a && String.eqb r' EmptyString then EmptyString else String a r'
  end.

(** [str.strip()] *)
Definition strip (s : string) : string := rstrip (lstrip s).

(** [n.get_text(strip=True)]: every text string below [n] is stripped,
    the empty ones are dropped, and the rest are joined with [""]. *)
Definition get_text_strip (n : node) : string :=
  String.concat "" (filter (fun s => negb (String.eqb s EmptyString))
                           (map strip (strings n))).

(* ------------------------------------------------------------------ *)
(** ** Effects: escaping exceptions, fetches, non-termination *)

(** The one Python exception the crawler can raise on a parsed page:
    an attribute looked up on [None]. *)
Inductive exn : Type := AttributeError.

(** How a computation ends: a value, an exception that escapes, or (for
    the unbounded [while] loop) no end within the fuel given. *)
Inductive outcome (A : Type) : Type :=
| Ret (a : A)
| Raise (e : exn)
| OutOfFuel.
Arguments Ret {A} a.
Arguments Raise {A} e.
Arguments OutOfFuel {A}.

(** The web site: what [fetch_page(session, url)] returns for each URL
    ([None] when [requests] raised and [fetch_page] caught it). *)
Definition site : Type := string -> option node.

(** A crawl step: the URLs fetched, in order, and how it ended. *)
Definition crawl (A : Type) : Type := list string * outcome A.

(* ------------------------------------------------------------------ *)
(** ** [parse_hotel_links] *)

(** The [for link in offer_links] loop; [link.get("href").split] raises
    [AttributeError] on an anchor without [href]. *)
Fixpoint collect_urls (offer_links : list node) (urls : list string)
  : outcome (list string) :=
  match offer_links with
  | [] => Ret urls
  | link :: rest =>
      match get_attr "href" link with
      | None => Raise AttributeError
      | Some href => collect_urls rest (urls ++ [hotel_review_url href])%list
      end
  end.

Definition parse_hotel_links (soup : node) : outcome (list string) :=
  match find "div" (Some "swiper-wrapper") soup with
  | None => Ret []
  | Some frequently_rated => collect_urls (find_all "a" None frequently_rated) []
  end.

(* ------------------------------------------------------------------ *)
(** ** [extract_opinions] *)

Definition extract_opinions (soup : node) : list string :=
  match find "div" (Some "opinions__list") soup with
  | None => []
  | Some opinions_list =>
      map get_text_strip
          (find_all "p" (Some "opinion__attributes-content") opinions_list)
  end.

(* ------------------------------------------------------------------ *)
(** ** [scrape_hotel_opinions] *)

Definition site_root : string := "https://www.wakacje.pl".

(** Python's [str(x)] of an optional attribute value. *)
Definition py_str (x : option string) : string :=
  match x with Some s => s | None => "None" end.

(** [soup.find("li", class_="pagination__item--next")] *)
Definition find_next (soup : node) : option node :=
  find "li" (Some "pagination__item--next") soup.

(** [next_page_url = "https://www.wakacje.pl" + str(next_page.find("a").get("href"))] *)
Definition next_page_url (next_page : node) : outcome string :=
  match find "a" None next_page with
  | None => Raise AttributeError
  | Some a => Ret (site_root ++ py_str (get_attr "href" a))
  end.

(** The [while next_page:] loop; each iteration spends one unit of fuel. *)
Fixpoint walk_loop (fuel : nat) (fetch : site) (next_page : option node)
  (opinions : list string) : crawl (list string) :=
  match next_page with
  | None => ([], Ret opinions)
  | Some np =>
      match fuel with
      | O => ([], OutOfFuel)
      | S fuel' =>
          match next_page_url np with
          | Raise e => ([], Raise e)
          | OutOfFuel => ([], OutOfFuel)
          | Ret next_url =>
              match fetch next_url with
              | Some soup =>
                  let '(tr, r) := walk_loop fuel' fetch (find_next soup)
                                    (opinions ++ extract_opinions soup)%list in
                  (next_url :: tr, r)
              | None => ([next_url], Ret opinions)
              end
          end
      end
  end.

Definition scrape_hotel_opinions (fuel : nat) (fetch : site) (url : string)
  : crawl (list string) :=
  match fetch url with
  | None => ([url], Ret [])
  | Some soup =>
      let '(tr, r) := walk_loop fuel fetch (find_next soup) (extract_opinions soup) in
      (url :: tr, r)
  end.

(* ------------------------------------------------------------------ *)
(** ** [main] *)

Record hotel_result : Type := { hotel_url : string; opinions : list string }.

(** The list [data] that [json.dump] writes. *)
Definition snapshot : Type := list hotel_result.

(** A run of [main]: the URLs fetched, the content written to
    [results/1_opinions.json] ([None]: the [open]/[json.dump] after the
    [with] block is never reached), and how the run ends. *)
Record run : Type := {
  fetched : list string;
  opinions_file : option snapshot;
  status : outcome unit
}.

Definition catalog_url : string := "https://www.wakacje.pl/hotele/".

(** [for hotel_url in hotel_urls: ... data.append(...)] *)
Fixpoint crawl_hotels (fuel : nat) (fetch : site) (hotel_urls : list string)
  (data : snapshot) : crawl snapshot :=
  match hotel_urls with
  | [] => ([], Ret data)
  | u :: us =>
      let '(tr, r) := scrape_hotel_opinions fuel fetch u in
      match r with
      | Ret ops =>
          let '(tr', r') := crawl_hotels fuel fetch us
                              (data ++ [{| hotel_url := u; opinions := ops |}])%list in
          ((tr ++ tr')%list, r')
      | Raise e => (tr, Raise e)
      | OutOfFuel => (tr, OutOfFuel)
      end
  end.

(** An exception escaping the [with] block, or a loop that does not end,
    means the file is never written. *)
Definition finish (tr : list string) (r : outcome snapshot) : run :=
  match r with
  | Ret data => {| fetched := tr; opinions_file := Some data; status := Ret tt |}
  | Raise e => {| fetched := tr; opinions_file := None; status := Raise e |}
  | OutOfFuel => {| fetched := tr; opinions_file := None; status := OutOfFuel |}
  end.

Definition main (fuel : nat) (fetch : site) : run :=
  match fetch catalog_url with
  | None => finish [catalog_url] (Ret [])
  | Some soup =>
      match parse_hotel_links soup with
      | Ret hotel_urls =>
          let '(tr, r) := crawl_hotels fuel fetch hotel_urls [] in
          finish (catalog_url :: tr) r
      | Raise e => finish [catalog_url] (Raise e)
      | OutOfFuel => finish [catalog_url] OutOfFuel
      end
  end.

(* ------------------------------------------------------------------ *)
(** ** Notions used to state properties *)

(** [next_chain fetch u ds v]: fetching [u] and then following, page after
    page, the URL of each page's next-page control yields the pages [ds];
    the control of the last of them (or [u] itself when [ds] is empty)
    leads to [v]. *)
Inductive next_chain (fetch : site) : string -> list node -> string -> Prop :=
| chain_nil u : next_chain fetch u [] u
| chain_cons u d np u' ds v :
    fetch u = Some d ->
    find_next d = Some np ->
    next_page_url np = Ret u' ->
    next_chain fetch u' ds v ->
    next_chain fetch u (d :: ds) v.

(** The text content of an element: its text strings joined. *)
Definition text_content (n : node) : string := String.concat "" (strings n).

(** A catalog page whose carousel holds the single link of the end-to-end
    scenario, and a review page with two opinions and no next-page control. *)
Definition e2e_catalog : node :=
  Elem "[document]" [] []
    [Elem "div" ["swiper-wrapper"] []
       [Elem "a" [] [("href", "/pl/offer/123-grand-hotel")] [Text "Grand Hotel"]]].

Definition e2e_opinion (s : string) : node :=
  Elem "p" ["opinion__attributes-content"] [] [Text s].

Definition e2e_reviews : node :=
  Elem "[document]" [] []
    [Elem "div" ["opinions__list"] []
       [e2e_opinion "Great stay"; e2e_opinion "Would return"]].

(** Small review sites for exercising the walk: a page with its opinions
    and, optionally, a next-page control linking to [h]; a site serving
    the listed pages and failing on every other URL. *)
Definition demo_next (h : string) : node :=
  Elem "li" ["pagination__item--next"] [] [Elem "a" [] [("href", h)] []].

Definition demo_page (ops : list string) (next : option string) : node :=
  Elem "[document]" [] []
    (Elem "div" ["opinions__list"] [] (map e2e_opinion ops) ::
     match next with None => [] | Some h => [demo_next h] end).

Definition demo_site (pages : list (string * node)) : site :=
  fun u => match List.find (fun p => String.eqb (fst p) u) pages with
           | Some p => Some (snd p)
           | None => None
           end.

Definition demo_three : site :=
  demo_site [("https://www.wakacje.pl/opinie/hotele/a-hb", demo_page ["one"] (Some "/p2"));
             ("https://www.wakacje.pl/p2", demo_page ["two"; "three"] (Some "/p3"));
             ("https://www.wakacje.pl/p3", demo_page ["four"] None)].

Definition demo_broken : site :=
  demo_site [("https://www.wakacje.pl/opinie/hotele/a-hb", demo_page ["one"] (Some "/p2"))].

(** A catalog page whose carousel holds anchors with the given hrefs
    ([None]: an anchor without [href]). *)
Definition demo_catalog (hrefs : list (option string)) : node :=
  Elem "[document]" [] []
    [Elem "div" ["swiper-wrapper"] []
       (map (fun h => match h with
                      | Some h => Elem "a" [] [("href", h)] [Text "hotel"]
                      | None => Elem "a" [] [] [Text "hotel"]
                      end) hrefs)].

(** Whether a string starts, or ends, with a whitespace character. *)
Definition starts_with_space (s : string) : bool :=
  match s with EmptyString => false | String a _ => is_space a end.

Fixpoint ends_with_space (s : string) : bool :=
  match s with
  | EmptyString => false
  | String a EmptyString => is_space a
  | String _ r => ends_with_space r
  end.

(** The pages a walk actually received, for the URLs it fetched in order. *)
Definition pages_of (fetch : site) (tr : list string) : list node :=
  flat_map (fun u => match fetch u with Some d => [d] | None => [] end) tr.

(* ------------------------------------------------------------------ *)
(** ** The text pipeline's input stage (src/main.py)

    [process_data] reads back the [results/1_opinions.json] that [main]
    wrote and normalises it with [create_corpus]; every intermediate list
    is saved by [write_tokens_to_file]. *)

(** [char in string.punctuation]: string.punctuation is the ASCII
    characters 33-47, 58-64, 91-96 and 123-126. *)
Definition is_punctuation (a : ascii) : bool :=
  let k := nat_of_ascii a in
  ((33 <=? k) && (k <=? 47))%nat || ((58 <=? k) && (k <=? 64))%nat ||
  ((91 <=? k) && (k <=? 96))%nat || ((123 <=? k) && (k <=? 126))%nat.

(** The code points below 256 that [str.lower] changes: A-Z, 0xC0-0xD6
    and 0xD8-0xDE; each is lowered by adding 32. *)
Definition is_upper (a : ascii) : bool :=
  let k := nat_of_ascii a in
  ((65 <=? k) && (k <=? 90))%nat || ((192 <=? k) && (k <=? 214))%nat ||
  ((216 <=? k) && (k <=? 222))%nat.

(** [str.lower] on one character below 256. *)
Definition lower_char (a : ascii) : ascii :=
  if is_upper a then ascii_of_nat (nat_of_ascii a + 32) else a.

Fixpoint lower (s : string) : string :=
  match s with
  | EmptyString => EmptyString
  | String a r => String (lower_char a) (lower r)
  end.

(** [''.join(char for char in opinion if char not in string.punctuation)] *)
Fixpoint remove_punctuation (s : string) : string :=
  match s with
  | EmptyString => EmptyString
  | String a r =>
      if is_punctuation a then remove_punctuation r else String a (remove_punctuation r)
  end.

(** [create_corpus(data)]: the loops over [data] and [item["opinions"]]. *)
Definition create_corpus (data : snapshot) : list string :=
  flat_map (fun item => map (fun opinion => lower (remove_punctuation opinion))
                            (opinions item)) data.

(** [''.join(token)] of a string token: the join of its characters. *)
Definition join_chars (token : string) : string :=
  String.concat "" (map (fun a => String a EmptyString) (list_ascii_of_string token)).

Definition newline : string := String (ascii_of_nat 10) EmptyString.

(** What [write_tokens_to_file(file_path, tokens)] writes to the file:
    [file.write("\n".join(["".join(token) for token in tokens]))]. *)
Definition write_tokens_to_file (tokens : list string) : string :=
  Py.join newline (map join_chars tokens).

(** Every character of a string satisfies [p]. *)
Fixpoint string_forall (p : ascii -> bool) (s : string) : bool :=
  match s with
  | EmptyString => true
  | String a r => p a && string_forall p r
  end.

(* ------------------------------------------------------------------ *)
(** ** String lemmas *)

Lemma str_app_assoc (a b c : string) : (a ++ b) ++ c = a ++ (b ++ c).
Proof. induction a as [|x a IH]; simpl; [reflexivity | now rewrite IH]. Qed.

Lemma str_length_app (a b : string) :
  String.length (a ++ b) = String.length a + String.length b.
Proof. induction a as [|x a IH]; simpl; [reflexivity | now rewrite IH]. Qed.

Lemma substring_full (s : string) : substring 0 (String.length s) s = s.
Proof. induction s as [|x s IH]; simpl; [reflexivity | now rewrite IH]. Qed.

Lemma substring_app_l (a t : string) (n : nat) :
  substring 0 (String.length a + n) (a ++ t) = a ++ substring 0 n t.
Proof. induction a as [|x a IH]; simpl; [reflexivity | now rewrite IH]. Qed.

Lemma substring_app_r (a t : string) (n m : nat) :
  substring (String.length a + n) m (a ++ t) = substring n m t.
Proof. induction a as [|x a IH]; simpl; [reflexivity | exact IH]. Qed.

Lemma substring_empty (n : nat) (s : string) : substring n 0 s = EmptyString.
Proof. revert s; induction n as [|n IH]; intros [|x s]; simpl; auto. Qed.

Lemma rfind_nat_absent (c : ascii) (s : string) :
  Py.contains c s = false -> Py.rfind_nat s c = None.
Proof.
  induction s as [|x s IH]; simpl; [reflexivity|].
  destruct (ascii_dec x c); [discriminate|].
  intros H; now rewrite IH.
Qed.

Lemma rfind_nat_last (c : ascii) (a b : string) :
  Py.contains c b = false ->
  Py.rfind_nat (a ++ String c b) c = Some (String.length a).
Proof.
  intros Hb. induction a as [|x a IH]; simpl.
  - rewrite (rfind_nat_absent c b Hb).
    destruct (ascii_dec c c); [reflexivity | congruence].
  - now rewrite IH.
Qed.

Lemma prefix_no_dash : Py.contains "-"%char opinions_prefix = false.
Proof. reflexivity. Qed.

Lemma contains_app (c : ascii) (a b : string) :
  Py.contains c (a ++ b) = Py.contains c a || Py.contains c b.
Proof.
  induction a as [|x a IH]; simpl; [reflexivity|].
  destruct (ascii_dec x c); [reflexivity | exact IH].
Qed.

(** The rewriting of one href, spelled out with its remainder. *)
Lemma hotel_review_url_eq (href : string) :
  hotel_review_url href =
  (let url := opinions_prefix ++ href_remainder href in
   let index_href := Py.rfind url "-"%char in
   Py.slice_to url (index_href + 1) ++ "h" ++ Py.slice_from url (index_href + 1)).
Proof. reflexivity. Qed.

Lemma collect_urls_map (links : list node) (hrefs acc : list string) :
  map (get_attr "href") links = map Some hrefs ->
  collect_urls links acc = Ret (acc ++ map hotel_review_url hrefs)%list.
Proof.
  revert hrefs acc.
  induction links as [|l links IH]; intros [|h hrefs] acc Hm; simpl in *;
    try discriminate.
  - now rewrite app_nil_r.
  - injection Hm as Hl Hm. rewrite Hl, (IH hrefs _ Hm).
    now rewrite <- app_assoc.
Qed.

(* ------------------------------------------------------------------ *)
(** ** Link rewriting (claims C1, C7, C8, C10) *)

(** The rewriting when the remainder has a '-': the 'h' goes right after
    its last one. *)
Lemma review_url_after_last_dash (href r1 r2 : string) :
  href_remainder href = r1 ++ String "-" r2 ->
  Py.contains "-"%char r2 = false ->
  hotel_review_url href = opinions_prefix ++ r1 ++ String "-" (String "h" r2).
Proof.
  intros Hr Hr2. rewrite hotel_review_url_eq. cbv zeta. rewrite Hr.
  rewrite <- (str_app_assoc opinions_prefix r1).
  set (a := opinions_prefix ++ r1).
  unfold Py.rfind. rewrite (rfind_nat_last _ a r2 Hr2).
  unfold Py.slice_to, Py.slice_from, Py.slice_bound.
  rewrite str_length_app. cbn [String.length].
  replace (Z.of_nat (String.length a) + 1 <? 0)%Z with false
    by (symmetry; apply Z.ltb_ge; lia).
  replace (Nat.min (Z.to_nat (Z.of_nat (String.length a) + 1))
                   (String.length a + S (String.length r2)))
    with (String.length a + 1)%nat by lia.
  replace (String.length a + S (String.length r2) - (String.length a + 1))%nat
    with (String.length r2) by lia.
  rewrite substring_app_l, substring_app_r. cbn [substring].
  rewrite substring_empty, substring_full. unfold a. rewrite !str_app_assoc. reflexivity.
Qed.

(** The rewriting when the rewritten URL has no '-': [rfind] gives -1. *)
Lemma review_url_without_dash (href : string) :
  Py.contains "-"%char (opinions_prefix ++ href_remainder href) = false ->
  hotel_review_url href = "h" ++ opinions_prefix ++ href_remainder href.
Proof.
  intros H. rewrite hotel_review_url_eq. cbv zeta.
  set (url := opinions_prefix ++ href_remainder href) in *.
  unfold Py.rfind. rewrite (rfind_nat_absent _ _ H).
  unfold Py.slice_to, Py.slice_from, Py.slice_bound.
  change (-1 + 1)%Z with 0%Z. change (0 <? 0)%Z with false. cbv iota.
  change (Z.to_nat 0) with 0%nat. rewrite Nat.min_0_l, Nat.sub_0_r.
  rewrite substring_empty, substring_full. reflexivity.
Qed.

(** C1 refuted as stated: the href "x-y/a/b/c" has four segments and a
    '-', but its only '-' lies in a discarded segment, so the produced URL
    does not even start with the fixed prefix. *)
Lemma hotel_review_url_dash_in_discarded_segment :
  List.length (Py.split "/"%char "x-y/a/b/c") = 4%nat /\
  Py.contains "-"%char "x-y/a/b/c" = true /\
  hotel_review_url "x-y/a/b/c" = "hhttps://www.wakacje.pl/opinie/hotele/c" /\
  String.prefix opinions_prefix (hotel_review_url "x-y/a/b/c") = false.
Proof. repeat split; vm_compute; reflexivity. Qed.

(** C1 (amended): when the rejoined remainder of an href (its segments
    after the first three) contains a '-', the produced URL is the fixed
    prefix followed by that remainder with one 'h' inserted right after
    its last '-'; when the remainder has no '-' (also when the href's only
    '-' lie in the discarded segments), the rewritten URL has none either
    and the 'h' is put in front of it. *)
Theorem hotel_review_url_inserts_after_last_dash (href : string) :
  (forall r1 r2, href_remainder href = r1 ++ String "-" r2 ->
     Py.contains "-"%char r2 = false ->
     hotel_review_url href = opinions_prefix ++ r1 ++ String "-" (String "h" r2)) /\
  (Py.contains "-"%char (href_remainder href) = false ->
     Py.contains "-"%char (opinions_prefix ++ href_remainder href) = false /\
     hotel_review_url href = "h" ++ opinions_prefix ++ href_remainder href).
Proof.
  split.
  - intros r1 r2. apply review_url_after_last_dash.
  - intros H.
    assert (Hu : Py.contains "-"%char (opinions_prefix ++ href_remainder href) = false)
      by (now rewrite contains_app, prefix_no_dash, H).
    split; [exact Hu | exact (review_url_without_dash href Hu)].
Qed.

Lemma hotel_review_url_inserts_after_last_dash_witness :
  hotel_review_url "/pl/offer/123-grand-hotel" =
    opinions_prefix ++ "123-grand" ++ String "-" (String "h" "hotel") /\
  Py.contains "-"%char (opinions_prefix ++ href_remainder "x-y/a/b/c") = false /\
  hotel_review_url "x-y/a/b/c" = "h" ++ opinions_prefix ++ href_remainder "x-y/a/b/c".
Proof.
  split.
  - apply (proj1 (hotel_review_url_inserts_after_last_dash "/pl/offer/123-grand-hotel"));
      vm_compute; reflexivity.
  - apply (proj2 (hotel_review_url_inserts_after_last_dash "x-y/a/b/c")).
    vm_compute. reflexivity.
Defined.

(** C10: when the rewritten URL has no '-', [rfind] gives -1 and the 'h'
    is put in front of the whole URL, which then starts with
    "hhttps://www.wakacje.pl/opinie/hotele/". *)
Theorem hotel_review_url_no_dash (href : string) :
  Py.contains "-"%char (opinions_prefix ++ href_remainder href) = false ->
  hotel_review_url href = "h" ++ opinions_prefix ++ href_remainder href.
Proof. exact (review_url_without_dash href). Qed.

Lemma hotel_review_url_no_dash_witness :
  Py.contains "-"%char (opinions_prefix ++ href_remainder "/pl/offer/grand") = false /\
  hotel_review_url "/pl/offer/grand" = "h" ++ opinions_prefix ++ href_remainder "/pl/offer/grand".
Proof.
  split; [vm_compute; reflexivity|].
  apply hotel_review_url_no_dash. vm_compute. reflexivity.
Defined.

(** C7: without the carousel container, [parse_hotel_links] returns the
    empty list (no exception). *)
Theorem parse_hotel_links_no_carousel (soup : node) :
  find "div" (Some "swiper-wrapper") soup = None ->
  parse_hotel_links soup = Ret [].
Proof. intros H. unfold parse_hotel_links. now rewrite H. Qed.

Lemma parse_hotel_links_no_carousel_witness :
  find "div" (Some "swiper-wrapper") e2e_reviews = None /\
  parse_hotel_links e2e_reviews = Ret [].
Proof.
  split; [reflexivity|]. apply parse_hotel_links_no_carousel. reflexivity.
Defined.

(** C8 refuted as stated: an href with a single segment and no '-' is not
    skipped; a URL is still produced from it (with the 'h' in front). *)
Lemma parse_hotel_links_malformed_not_skipped :
  parse_hotel_links
    (Elem "[document]" [] []
       [Elem "div" ["swiper-wrapper"] [] [Elem "a" [] [("href", "abc")] []]])
  = Ret ["hhttps://www.wakacje.pl/opinie/hotele/"].
Proof. vm_compute. reflexivity. Qed.

(** C8 (amended): whatever the shape of the hrefs, as long as every anchor
    of the carousel has one, [parse_hotel_links] raises nothing and skips
    nothing: it returns one rewritten URL per anchor, in order; for an
    href whose rewritten URL has no '-', the 'h' is put in front of it. *)
Theorem parse_hotel_links_keeps_every_href (soup fr : node) (hrefs : list string) :
  find "div" (Some "swiper-wrapper") soup = Some fr ->
  map (get_attr "href") (find_all "a" None fr) = map Some hrefs ->
  parse_hotel_links soup = Ret (map hotel_review_url hrefs) /\
  Forall (fun h => Py.contains "-"%char (opinions_prefix ++ href_remainder h) = false ->
                   hotel_review_url h = "h" ++ opinions_prefix ++ href_remainder h) hrefs.
Proof.
  intros Hf Hm. split.
  - unfold parse_hotel_links. rewrite Hf.
    exact (collect_urls_map _ hrefs [] Hm).
  - apply Forall_forall. intros h _. apply review_url_without_dash.
Qed.

Lemma parse_hotel_links_keeps_every_href_witness :
  parse_hotel_links
    (Elem "[document]" [] []
       [Elem "div" ["swiper-wrapper"] []
          [Elem "a" [] [("href", "abc")] []; Elem "a" [] [("href", "x/y")] []]])
  = Ret [hotel_review_url "abc"; hotel_review_url "x/y"] /\
  Forall (fun h => Py.contains "-"%char (opinions_prefix ++ href_remainder h) = false ->
                   hotel_review_url h = "h" ++ opinions_prefix ++ href_remainder h)
         ["abc"; "x/y"].
Proof.
  apply (parse_hotel_links_keeps_every_href _
           (Elem "div" ["swiper-wrapper"] []
              [Elem "a" [] [("href", "abc")] []; Elem "a" [] [("href", "x/y")] []])
           ["abc"; "x/y"]); reflexivity.
Defined.

(* ------------------------------------------------------------------ *)
(** ** Opinion extraction (claim C6) *)

(** C6: the docstring says [extract_opinions] retrieves the text content
    of each opinion paragraph, but [get_text(strip=True)] strips each
    text piece and joins them with nothing: for the paragraph
    "Great <b>stay</b>" the code returns "Greatstay", not the trimmed text
    content "Great stay". *)
Lemma extract_opinions_pieces_not_trimmed_text :
  let p := Elem "p" ["opinion__attributes-content"] []
             [Text "Great "; Elem "b" [] [] [Text "stay"]] in
  extract_opinions (Elem "[document]" [] [] [Elem "div" ["opinions__list"] [] [p]])
    = ["Greatstay"] /\
  strip (text_content p) = "Great stay".
Proof. split; vm_compute; reflexivity. Qed.

(* ------------------------------------------------------------------ *)
(** ** The pagination walk (claims C2, C3) *)

Lemma walk_loop_none (fuel : nat) (fetch : site) (acc : list string) :
  walk_loop fuel fetch None acc = ([], Ret acc).
Proof. destruct fuel; reflexivity. Qed.

(** C2: on three pages linked 1 -> 2 -> 3 with no next-page control on the
    third, the walk fetches exactly the three URLs, each one after the first
    being the next link of the page before, never the same URL twice, and
    returns the three pages' opinions in page order. *)
Theorem scrape_three_pages (fuel : nat) (fetch : site) (u1 u2 u3 : string)
  (d1 d2 d3 np1 np2 : node) :
  fetch u1 = Some d1 -> find_next d1 = Some np1 -> next_page_url np1 = Ret u2 ->
  fetch u2 = Some d2 -> find_next d2 = Some np2 -> next_page_url np2 = Ret u3 ->
  fetch u3 = Some d3 -> find_next d3 = None ->
  (2 <= fuel)%nat ->
  scrape_hotel_opinions fuel fetch u1 =
    ([u1; u2; u3],
     Ret (extract_opinions d1 ++ extract_opinions d2 ++ extract_opinions d3)%list) /\
  NoDup [u1; u2; u3].
Proof.
  intros F1 N1 U2 F2 N2 U3 F3 N3 Hf. split.
  - destruct fuel as [|[|f]]; [lia|lia|].
    unfold scrape_hotel_opinions. rewrite F1, N1. cbn [walk_loop].
    rewrite U2, F2, N2. cbn [walk_loop]. rewrite U3, F3, N3. cbn [walk_loop].
    rewrite walk_loop_none. cbn. now rewrite app_assoc.
  - repeat constructor; simpl; intros E;
      repeat match goal with H : _ \/ _ |- _ => destruct H as [E'|E'] end;
      try contradiction; subst; congruence.
Qed.

Lemma scrape_three_pages_witness :
  scrape_hotel_opinions 2 demo_three "https://www.wakacje.pl/opinie/hotele/a-hb" =
    (["https://www.wakacje.pl/opinie/hotele/a-hb"; "https://www.wakacje.pl/p2";
      "https://www.wakacje.pl/p3"],
     Ret (extract_opinions (demo_page ["one"] (Some "/p2")) ++
          extract_opinions (demo_page ["two"; "three"] (Some "/p3")) ++
          extract_opinions (demo_page ["four"] None))%list) /\
  NoDup ["https://www.wakacje.pl/opinie/hotele/a-hb"; "https://www.wakacje.pl/p2";
         "https://www.wakacje.pl/p3"].
Proof.
  apply (scrape_three_pages 2 demo_three "https://www.wakacje.pl/opinie/hotele/a-hb"
           "https://www.wakacje.pl/p2" "https://www.wakacje.pl/p3"
           (demo_page ["one"] (Some "/p2")) (demo_page ["two"; "three"] (Some "/p3"))
           (demo_page ["four"] None) (demo_next "/p2") (demo_next "/p3"));
    first [reflexivity | lia].
Defined.

Lemma walk_loop_chain (fetch : site) (u : string) (ds : list node) (v : string) :
  next_chain fetch u ds v ->
  forall fuel np acc,
  next_page_url np = Ret u ->
  fetch v = None ->
  (List.length ds < fuel)%nat ->
  snd (walk_loop fuel fetch (Some np) acc) =
    Ret (acc ++ concat (map extract_opinions ds))%list.
Proof.
  induction 1 as [u | u d np' u' ds v Fu Nd Un Hc IH];
    intros fuel np acc Hnp Fv Hlen; (destruct fuel as [|f]; [simpl in Hlen; lia|]);
    cbn [walk_loop]; rewrite Hnp.
  - rewrite Fv. simpl. now rewrite app_nil_r.
  - rewrite Fu, Nd. simpl in Hlen.
    specialize (IH f np' (acc ++ extract_opinions d)%list Un Fv ltac:(lia)).
    destruct (walk_loop f fetch (Some np') (acc ++ extract_opinions d)%list) as [tr r].
    simpl in *. rewrite IH. now rewrite app_assoc.
Qed.

(** C3: when a fetch after the first page fails (the first page [d0] and
    the pages [ds] after it were fetched by following next links, and the
    next link of the last one leads to [v], whose fetch fails), the walk
    ends normally with exactly the opinions of the pages already fetched. *)
Theorem scrape_keeps_pages_before_failed_fetch (fuel : nat) (fetch : site)
  (u0 u1 v : string) (d0 np : node) (ds : list node) :
  fetch u0 = Some d0 -> find_next d0 = Some np -> next_page_url np = Ret u1 ->
  next_chain fetch u1 ds v -> fetch v = None ->
  (List.length ds < fuel)%nat ->
  snd (scrape_hotel_opinions fuel fetch u0) =
    Ret (concat (map extract_opinions (d0 :: ds))).
Proof.
  intros F0 N0 U1 Hc Fv Hlen. unfold scrape_hotel_opinions. rewrite F0, N0.
  pose proof (walk_loop_chain fetch u1 ds v Hc fuel np (extract_opinions d0) U1 Fv Hlen)
    as H.
  destruct (walk_loop fuel fetch (Some np) (extract_opinions d0)) as [tr r].
  exact H.
Qed.

(** The second fetch fails: only the first page's opinions come back. *)
Lemma scrape_keeps_pages_before_failed_fetch_witness :
  snd (scrape_hotel_opinions 1 demo_broken "https://www.wakacje.pl/opinie/hotele/a-hb") =
    Ret (concat (map extract_opinions [demo_page ["one"] (Some "/p2")])) /\
  extract_opinions (demo_page ["one"] (Some "/p2")) = ["one"].
Proof.
  split; [|reflexivity].
  apply (scrape_keeps_pages_before_failed_fetch 1 demo_broken
           "https://www.wakacje.pl/opinie/hotele/a-hb" "https://www.wakacje.pl/p2"
           "https://www.wakacje.pl/p2" (demo_page ["one"] (Some "/p2")) (demo_next "/p2") []);
    first [reflexivity | constructor | simpl; lia].
Defined.

(* ------------------------------------------------------------------ *)
(** ** The whole run (claims C4, C5, C9) *)

Lemma finish_written (tr : list string) (r : outcome snapshot) :
  opinions_file (finish tr r) <> None <-> status (finish tr r) = Ret tt.
Proof. destruct r; simpl; split; congruence. Qed.

(** C4 refuted as stated: the catalog is fetched, but an anchor of its
    carousel has no [href]; [link.get("href").split] raises, the exception
    leaves [main], and the results file is never written. *)
Lemma main_unwritten_on_anchor_without_href :
  let fetch := demo_site [(catalog_url, demo_catalog [None])] in
  fetch catalog_url <> None /\
  opinions_file (main 1 fetch) = None /\
  status (main 1 fetch) = Raise AttributeError.
Proof. repeat split; vm_compute; congruence. Qed.

(** C4 (amended): when the catalog fetch fails, [main] ends normally having
    fetched nothing else and writes the empty snapshot; in every run the
    snapshot is written exactly when the run ends without an escaping
    exception (and without looping forever). *)
Theorem main_catalog_failure_writes_empty (fuel : nat) (fetch : site) :
  (fetch catalog_url = None ->
   main fuel fetch =
     {| fetched := [catalog_url]; opinions_file := Some []; status := Ret tt |}) /\
  (opinions_file (main fuel fetch) <> None <-> status (main fuel fetch) = Ret tt).
Proof.
  split.
  - intros H. unfold main. now rewrite H.
  - unfold main. destruct (fetch catalog_url) as [soup|]; [|apply finish_written].
    destruct (parse_hotel_links soup) as [urls| |]; try apply finish_written.
    destruct (crawl_hotels fuel fetch urls []) as [tr r]. apply finish_written.
Qed.

Lemma main_catalog_failure_writes_empty_witness :
  main 0 (demo_site []) =
    {| fetched := [catalog_url]; opinions_file := Some []; status := Ret tt |} /\
  (opinions_file (main 0 (demo_site [])) <> None <->
   status (main 0 (demo_site [])) = Ret tt).
Proof.
  pose proof (main_catalog_failure_writes_empty 0 (demo_site [])) as [H1 H2].
  split; [apply H1; reflexivity | exact H2].
Defined.

(** C5 refuted as stated: the three discarded segments of
    "/pl/offer/123-grand-hotel" are "", "pl" and "offer", and its last '-'
    precedes "hotel". *)
Lemma e2e_link_is_not_the_spec_link :
  hotel_review_url "/pl/offer/123-grand-hotel" =
    "https://www.wakacje.pl/opinie/hotele/123-grand-hhotel" /\
  hotel_review_url "/pl/offer/123-grand-hotel" <>
    "https://www.wakacje.pl/opinie/hotele/offer/123-hgrand-hotel".
Proof. split; vm_compute; [reflexivity | discriminate]. Qed.

(** C5 (amended): the end-to-end scenario yields the link
    ".../hotele/123-grand-hhotel" and the snapshot holding that link with
    the two opinions. *)
Theorem main_end_to_end (fuel : nat) (fetch : site) :
  fetch catalog_url = Some e2e_catalog ->
  fetch "https://www.wakacje.pl/opinie/hotele/123-grand-hhotel" = Some e2e_reviews ->
  main fuel fetch =
    {| fetched := [catalog_url; "https://www.wakacje.pl/opinie/hotele/123-grand-hhotel"];
       opinions_file :=
         Some [{| hotel_url := "https://www.wakacje.pl/opinie/hotele/123-grand-hhotel";
                  opinions := ["Great stay"; "Would return"] |}];
       status := Ret tt |}.
Proof.
  intros Hc Hr. unfold main. rewrite Hc.
  assert (P : parse_hotel_links e2e_catalog =
              Ret ["https://www.wakacje.pl/opinie/hotele/123-grand-hhotel"])
    by (vm_compute; reflexivity).
  rewrite P. cbn [crawl_hotels]. unfold scrape_hotel_opinions. rewrite Hr.
  assert (N : find_next e2e_reviews = None) by reflexivity.
  assert (E : extract_opinions e2e_reviews = ["Great stay"; "Would return"])
    by reflexivity.
  rewrite N, E, walk_loop_none. reflexivity.
Qed.

Lemma main_end_to_end_witness :
  main 0 (demo_site [(catalog_url, e2e_catalog);
                     ("https://www.wakacje.pl/opinie/hotele/123-grand-hhotel", e2e_reviews)]) =
    {| fetched := [catalog_url; "https://www.wakacje.pl/opinie/hotele/123-grand-hhotel"];
       opinions_file :=
         Some [{| hotel_url := "https://www.wakacje.pl/opinie/hotele/123-grand-hhotel";
                  opinions := ["Great stay"; "Would return"] |}];
       status := Ret tt |}.
Proof. apply main_end_to_end; reflexivity. Defined.

Lemma scrape_first_fetch_fails (fuel : nat) (fetch : site) (u : string) :
  fetch u = None -> scrape_hotel_opinions fuel fetch u = ([u], Ret []).
Proof. intros H. unfold scrape_hotel_opinions. now rewrite H. Qed.

Lemma crawl_hotels_entries (fuel : nat) (fetch : site) (urls : list string) :
  forall data0 tr data,
  crawl_hotels fuel fetch urls data0 = (tr, Ret data) ->
  Forall (fun r => fetch (hotel_url r) = None -> opinions r = []) data0 ->
  map hotel_url data = (map hotel_url data0 ++ urls)%list /\
  Forall (fun r => fetch (hotel_url r) = None -> opinions r = []) data.
Proof.
  induction urls as [|u us IH]; intros data0 tr data Hc Hinv; simpl in Hc.
  - injection Hc as _ <-. now rewrite app_nil_r.
  - destruct (scrape_hotel_opinions fuel fetch u) as [tr1 r1] eqn:Es.
    destruct r1 as [ops| |]; try discriminate.
    destruct (crawl_hotels fuel fetch us
                (data0 ++ [{| hotel_url := u; opinions := ops |}])%list)
      as [tr2 r2] eqn:Ec.
    injection Hc as _ ->.
    destruct (IH _ _ _ Ec) as [Hm Hf].
    + apply Forall_app. split; [exact Hinv|].
      constructor; [|constructor]. simpl. intros Hu.
      rewrite (scrape_first_fetch_fails fuel fetch u Hu) in Es. congruence.
    + split; [|exact Hf]. rewrite Hm, map_app, <- app_assoc. reflexivity.
Qed.

(** C9: in a run whose catalog fetch succeeds and which writes its
    snapshot, the snapshot has one entry per extracted link, in the order
    of extraction, and the entry of a hotel whose first page cannot be
    fetched is there with no opinions. *)
Theorem main_one_entry_per_link (fuel : nat) (fetch : site) (soup : node)
  (hotel_urls : list string) (data : snapshot) :
  fetch catalog_url = Some soup ->
  parse_hotel_links soup = Ret hotel_urls ->
  opinions_file (main fuel fetch) = Some data ->
  map hotel_url data = hotel_urls /\
  Forall (fun r => fetch (hotel_url r) = None -> opinions r = []) data.
Proof.
  intros Hc Hp Hw. unfold main in Hw. rewrite Hc, Hp in Hw.
  destruct (crawl_hotels fuel fetch hotel_urls []) as [tr r] eqn:E.
  destruct r as [d| |]; simpl in Hw; try discriminate.
  injection Hw as ->.
  exact (crawl_hotels_entries fuel fetch hotel_urls [] tr data E (Forall_nil _)).
Qed.

Lemma main_one_entry_per_link_witness :
  let fetch := demo_site [(catalog_url, demo_catalog [Some "/pl/offer/123-grand-hotel";
                                                      Some "/pl/offer/x-y"]);
                          ("https://www.wakacje.pl/opinie/hotele/123-grand-hhotel",
                           e2e_reviews)] in
  map hotel_url
      [{| hotel_url := "https://www.wakacje.pl/opinie/hotele/123-grand-hhotel";
          opinions := ["Great stay"; "Would return"] |};
       {| hotel_url := "https://www.wakacje.pl/opinie/hotele/x-hy"; opinions := [] |}] =
    ["https://www.wakacje.pl/opinie/hotele/123-grand-hhotel";
     "https://www.wakacje.pl/opinie/hotele/x-hy"] /\
  Forall (fun r => fetch (hotel_url r) = None -> opinions r = [])
      [{| hotel_url := "https://www.wakacje.pl/opinie/hotele/123-grand-hhotel";
          opinions := ["Great stay"; "Would return"] |};
       {| hotel_url := "https://www.wakacje.pl/opinie/hotele/x-hy"; opinions := [] |}].
Proof.
  intros fetch.
  apply (main_one_entry_per_link 1 fetch
           (demo_catalog [Some "/pl/offer/123-grand-hotel"; Some "/pl/offer/x-y"]));
    vm_compute; reflexivity.
Defined.

(* ------------------------------------------------------------------ *)
(** ** Further properties of the crawler *)

Lemma substring_split (s : string) (n : nat) :
  (n <= String.length s)%nat ->
  substring 0 n s ++ substring n (String.length s - n) s = s.
Proof.
  revert n. induction s as [|x s IH]; intros [|n] Hn; simpl in *.
  - reflexivity.
  - lia.
  - now rewrite substring_full.
  - f_equal. apply IH. lia.
Qed.

Lemma slice_to_from (s : string) (k : Z) :
  Py.slice_to s k ++ Py.slice_from s k = s.
Proof.
  unfold Py.slice_to, Py.slice_from. apply substring_split.
  unfold Py.slice_bound. destruct (k <? 0)%Z eqn:E; [apply Z.ltb_lt in E|]; lia.
Qed.

(** Whatever the href, the link produced for it is the prefixed remainder
    with exactly one character, an 'h', inserted somewhere; nothing of the
    remainder is lost or changed. *)
Theorem hotel_review_url_one_insertion (href : string) :
  exists a b, opinions_prefix ++ href_remainder href = a ++ b /\
              hotel_review_url href = a ++ "h" ++ b.
Proof.
  rewrite hotel_review_url_eq. cbv zeta.
  set (url := opinions_prefix ++ href_remainder href).
  set (k := (Py.rfind url "-" + 1)%Z).
  exists (Py.slice_to url k), (Py.slice_from url k). split; [|reflexivity].
  symmetry. apply slice_to_from.
Qed.

Lemma collect_urls_missing_href (offer_links : list node) (urls : list string) :
  (exists link, In link offer_links /\ get_attr "href" link = None) ->
  collect_urls offer_links urls = Raise AttributeError.
Proof.
  revert urls. induction offer_links as [|l ls IH]; intros urls [link [Hin Hh]].
  - destruct Hin.
  - simpl. destruct Hin as [<-|Hin].
    + now rewrite Hh.
    + destruct (get_attr "href" l); [|reflexivity]. apply IH. now exists link.
Qed.

(** One carousel anchor without an href makes [parse_hotel_links] raise
    [AttributeError], whatever the other anchors are. *)
Theorem parse_hotel_links_missing_href (soup fr : node) :
  find "div" (Some "swiper-wrapper") soup = Some fr ->
  (exists link, In link (find_all "a" None fr) /\ get_attr "href" link = None) ->
  parse_hotel_links soup = Raise AttributeError.
Proof.
  intros Hf Hl. unfold parse_hotel_links. rewrite Hf.
  now apply collect_urls_missing_href.
Qed.

Lemma parse_hotel_links_missing_href_witness :
  parse_hotel_links (demo_catalog [Some "/pl/offer/123-grand-hotel"; None]) =
    Raise AttributeError.
Proof.
  apply (parse_hotel_links_missing_href _
           (Elem "div" ["swiper-wrapper"] []
              [Elem "a" [] [("href", "/pl/offer/123-grand-hotel")] [Text "hotel"];
               Elem "a" [] [] [Text "hotel"]])); [reflexivity|].
  exists (Elem "a" [] [] [Text "hotel"]). split; [simpl; auto 10|reflexivity].
Defined.

Lemma walk_loop_pages (fetch : site) (fuel : nat) :
  forall next_page acc tr ops,
  walk_loop fuel fetch next_page acc = (tr, Ret ops) ->
  ops = (acc ++ concat (map extract_opinions (pages_of fetch tr)))%list /\
  Forall (fun u => fetch u <> None) (removelast tr).
Proof.
  induction fuel as [|f IH]; intros [np|] acc tr ops H; simpl in H.
  - discriminate.
  - injection H as <- <-. simpl. now rewrite app_nil_r.
  - destruct (next_page_url np) as [u| |]; try discriminate.
    destruct (fetch u) as [d|] eqn:Fu.
    + destruct (walk_loop f fetch (find_next d) (acc ++ extract_opinions d)%list)
        as [tr' r'] eqn:E.
      injection H as <- ->. destruct (IH _ _ _ _ E) as [Ho Hf].
      unfold pages_of in *. simpl. rewrite Fu. simpl. split.
      * rewrite Ho. now rewrite app_assoc.
      * destruct tr' as [|v tr'']; [constructor|]. constructor; [congruence|exact Hf].
    + injection H as <- <-. unfold pages_of. simpl. rewrite Fu. simpl.
      now rewrite app_nil_r.
  - injection H as <- <-. simpl. now rewrite app_nil_r.
Qed.

(** A walk that ends normally returns exactly the opinions of the pages it
    received, in the order it fetched them; every fetch but the last one
    succeeded. *)
Theorem scrape_opinions_of_fetched_pages (fuel : nat) (fetch : site) (url : string)
  (tr : list string) (ops : list string) :
  scrape_hotel_opinions fuel fetch url = (tr, Ret ops) ->
  ops = concat (map extract_opinions (pages_of fetch tr)) /\
  Forall (fun u => fetch u <> None) (removelast tr).
Proof.
  unfold scrape_hotel_opinions. destruct (fetch url) as [d|] eqn:Fu; intros H.
  - destruct (walk_loop fuel fetch (find_next d) (extract_opinions d)) as [tr' r] eqn:E.
    injection H as <- ->. destruct (walk_loop_pages fetch fuel _ _ _ _ E) as [Ho Hf].
    unfold pages_of in *. simpl. rewrite Fu. simpl. split; [exact Ho|].
    destruct tr' as [|v tr'']; [constructor|]. constructor; [congruence|exact Hf].
  - injection H as <- <-. unfold pages_of. simpl. rewrite Fu. split; constructor.
Qed.

Lemma scrape_opinions_of_fetched_pages_witness :
  scrape_hotel_opinions 2 demo_three "https://www.wakacje.pl/opinie/hotele/a-hb" =
    (["https://www.wakacje.pl/opinie/hotele/a-hb"; "https://www.wakacje.pl/p2";
      "https://www.wakacje.pl/p3"], Ret ["one"; "two"; "three"; "four"]) /\
  ["one"; "two"; "three"; "four"] =
    concat (map extract_opinions
      (pages_of demo_three ["https://www.wakacje.pl/opinie/hotele/a-hb";
                            "https://www.wakacje.pl/p2"; "https://www.wakacje.pl/p3"])) /\
  Forall (fun u => demo_three u <> None)
    (removelast ["https://www.wakacje.pl/opinie/hotele/a-hb"; "https://www.wakacje.pl/p2";
                 "https://www.wakacje.pl/p3"]).
Proof.
  split; [vm_compute; reflexivity|].
  apply (scrape_opinions_of_fetched_pages 2 demo_three
           "https://www.wakacje.pl/opinie/hotele/a-hb"). vm_compute. reflexivity.
Defined.

Lemma prefix_app (s t : string) : String.prefix s (s ++ t) = true.
Proof.
  induction s as [|x s IH]; [destruct t; reflexivity|]. simpl.
  destruct (ascii_dec x x); [exact IH | congruence].
Qed.

Lemma walk_loop_urls (fetch : site) (fuel : nat) :
  forall next_page acc,
  Forall (fun v => String.prefix site_root v = true) (fst (walk_loop fuel fetch next_page acc)).
Proof.
  induction fuel as [|f IH]; intros [np|] acc; simpl; try constructor.
  destruct (next_page_url np) as [u| |] eqn:Enp; try constructor.
  assert (Hu : String.prefix site_root u = true).
  { unfold next_page_url in Enp. destruct (find "a" None np); [|discriminate].
    injection Enp as <-. exact (prefix_app site_root _). }
  destruct (fetch u) as [d|].
  - specialize (IH (find_next d) (acc ++ extract_opinions d)%list).
    destruct (walk_loop f fetch (find_next d) (acc ++ extract_opinions d)%list) as [tr r].
    simpl in *. now constructor.
  - simpl. now constructor.
Qed.

(** Every URL a hotel's walk fetches after its start URL begins with
    "https://www.wakacje.pl": next-page links are always taken as
    site-relative. *)
Theorem scrape_followed_urls_on_site (fuel : nat) (fetch : site) (url : string) :
  Forall (fun v => String.prefix site_root v = true)
         (tl (fst (scrape_hotel_opinions fuel fetch url))).
Proof.
  unfold scrape_hotel_opinions. destruct (fetch url) as [d|]; [|constructor].
  pose proof (walk_loop_urls fetch fuel (find_next d) (extract_opinions d)) as H.
  destruct (walk_loop fuel fetch (find_next d) (extract_opinions d)) as [tr r].
  exact H.
Qed.

Lemma next_page_url_not_ret (np : node) (r : outcome string) :
  next_page_url np = r -> (forall u, r <> Ret u) ->
  r = Raise AttributeError /\ find "a" None np = None.
Proof.
  unfold next_page_url. destruct (find "a" None np); intros <- Hr; [|auto].
  exfalso. eapply Hr. reflexivity.
Qed.

Lemma walk_loop_raise (fetch : site) (fuel : nat) :
  forall next_page acc tr e,
  walk_loop fuel fetch next_page acc = (tr, Raise e) ->
  exists np, find "a" None np = None /\
    (next_page = Some np \/
     exists v d, In v tr /\ fetch v = Some d /\ find_next d = Some np).
Proof.
  induction fuel as [|f IH]; intros [np|] acc tr e H; simpl in H; try discriminate.
  destruct (next_page_url np) as [u| e'|] eqn:Enp.
  - destruct (fetch u) as [d|] eqn:Fu; [|discriminate].
    destruct (walk_loop f fetch (find_next d) (acc ++ extract_opinions d)%list)
      as [tr' r'] eqn:E.
    injection H as <- ->.
    destruct (IH _ _ _ _ E) as [np' [Ha [Hn | [v [d' [Hin [Fv Hv]]]]]]];
      exists np'; split; auto; right.
    + exists u, d. simpl. auto.
    + exists v, d'. simpl. auto.
  - destruct (next_page_url_not_ret np _ Enp) as [_ Ha]; [discriminate|].
    exists np. auto.
  - destruct (next_page_url_not_ret np _ Enp) as [Hc _]; [discriminate|]. discriminate.
Qed.

(** The walk of a hotel raises only on a page it fetched whose next-page
    control holds no anchor ([next_page.find("a")] is [None]); a failed
    fetch never makes it raise. *)
Theorem scrape_raises_only_on_anchorless_next (fuel : nat) (fetch : site)
  (url : string) (tr : list string) (e : exn) :
  scrape_hotel_opinions fuel fetch url = (tr, Raise e) ->
  exists v d np, In v tr /\ fetch v = Some d /\ find_next d = Some np /\
                 find "a" None np = None.
Proof.
  unfold scrape_hotel_opinions. destruct (fetch url) as [d|] eqn:Fu; intros H;
    [|discriminate].
  destruct (walk_loop fuel fetch (find_next d) (extract_opinions d)) as [tr' r] eqn:E.
  injection H as <- ->.
  destruct (walk_loop_raise fetch fuel _ _ _ _ E)
    as [np [Ha [Hn | [v [d' [Hin [Fv Hv]]]]]]].
  - exists url, d, np. simpl. auto.
  - exists v, d', np. simpl. auto.
Qed.

Lemma scrape_raises_only_on_anchorless_next_witness :
  let page := Elem "[document]" [] [] [Elem "li" ["pagination__item--next"] [] []] in
  let fetch := demo_site [("https://www.wakacje.pl/opinie/hotele/a-hb", page)] in
  scrape_hotel_opinions 1 fetch "https://www.wakacje.pl/opinie/hotele/a-hb" =
    (["https://www.wakacje.pl/opinie/hotele/a-hb"], Raise AttributeError) /\
  exists v d np, In v ["https://www.wakacje.pl/opinie/hotele/a-hb"] /\
    fetch v = Some d /\ find_next d = Some np /\ find "a" None np = None.
Proof.
  intros page fetch. split; [reflexivity|].
  apply (scrape_raises_only_on_anchorless_next 1 fetch
           "https://www.wakacje.pl/opinie/hotele/a-hb" _ AttributeError).
  reflexivity.
Defined.

(** A catalog page without the carousel: [main] fetches only the catalog
    and writes the empty snapshot. *)
Theorem main_no_carousel_writes_empty (fuel : nat) (fetch : site) (soup : node) :
  fetch catalog_url = Some soup ->
  find "div" (Some "swiper-wrapper") soup = None ->
  main fuel fetch =
    {| fetched := [catalog_url]; opinions_file := Some []; status := Ret tt |}.
Proof.
  intros Hc Hf. unfold main. rewrite Hc. unfold parse_hotel_links. rewrite Hf.
  reflexivity.
Qed.

Lemma main_no_carousel_writes_empty_witness :
  main 3 (demo_site [(catalog_url, e2e_reviews)]) =
    {| fetched := [catalog_url]; opinions_file := Some []; status := Ret tt |}.
Proof. apply (main_no_carousel_writes_empty 3 _ e2e_reviews); reflexivity. Defined.

Lemma crawl_hotels_raise (fuel : nat) (fetch : site) (pre : list string) (u : string)
  (post : list string) (e : exn) :
  Forall (fun v => exists tr ops, scrape_hotel_opinions fuel fetch v = (tr, Ret ops)) pre ->
  snd (scrape_hotel_opinions fuel fetch u) = Raise e ->
  forall data, snd (crawl_hotels fuel fetch (pre ++ u :: post) data) = Raise e.
Proof.
  intros Hpre Hu. induction Hpre as [|v pre' [tr [ops Hv]] _ IH]; intros data; simpl.
  - destruct (scrape_hotel_opinions fuel fetch u) as [tr r]. simpl in Hu. now subst.
  - rewrite Hv.
    specialize (IH (data ++ [{| hotel_url := v; opinions := ops |}])%list).
    destruct (crawl_hotels fuel fetch (pre' ++ u :: post)
                (data ++ [{| hotel_url := v; opinions := ops |}])%list) as [tr' r'].
    exact IH.
Qed.

(** When the walk of one hotel raises, the exception leaves [main]: the
    opinions already collected for the hotels before it are lost and
    nothing is written. *)
Theorem main_hotel_raise_discards_all (fuel : nat) (fetch : site) (soup : node)
  (pre : list string) (u : string) (post : list string) (e : exn) :
  fetch catalog_url = Some soup ->
  parse_hotel_links soup = Ret (pre ++ u :: post)%list ->
  Forall (fun v => exists tr ops, scrape_hotel_opinions fuel fetch v = (tr, Ret ops)) pre ->
  snd (scrape_hotel_opinions fuel fetch u) = Raise e ->
  opinions_file (main fuel fetch) = None /\ status (main fuel fetch) = Raise e.
Proof.
  intros Hc Hp Hpre Hu. unfold main. rewrite Hc, Hp.
  pose proof (crawl_hotels_raise fuel fetch pre u post e Hpre Hu []) as H.
  destruct (crawl_hotels fuel fetch (pre ++ u :: post) []) as [tr r].
  simpl in H. subst r. split; reflexivity.
Qed.

Lemma main_hotel_raise_discards_all_witness :
  let fetch :=
    demo_site [(catalog_url, demo_catalog [Some "/pl/offer/123-grand-hotel";
                                           Some "/pl/offer/x-y"]);
               ("https://www.wakacje.pl/opinie/hotele/123-grand-hhotel", e2e_reviews);
               ("https://www.wakacje.pl/opinie/hotele/x-hy",
                Elem "[document]" [] [] [Elem "li" ["pagination__item--next"] [] []])] in
  opinions_file (main 1 fetch) = None /\ status (main 1 fetch) = Raise AttributeError.
Proof.
  intros fetch.
  apply (main_hotel_raise_discards_all 1 fetch
           (demo_catalog [Some "/pl/offer/123-grand-hotel"; Some "/pl/offer/x-y"])
           ["https://www.wakacje.pl/opinie/hotele/123-grand-hhotel"]
           "https://www.wakacje.pl/opinie/hotele/x-hy" []).
  - reflexivity.
  - vm_compute. reflexivity.
  - constructor; [|constructor]. do 2 eexists. vm_compute. reflexivity.
  - vm_compute. reflexivity.
Defined.

Lemma lstrip_no_leading (s : string) : starts_with_space (lstrip s) = false.
Proof.
  induction s as [|a r IH]; simpl; [reflexivity|].
  destruct (is_space a) eqn:E; [exact IH | exact E].
Qed.

Lemma rstrip_keeps_no_leading (s : string) :
  starts_with_space s = false -> starts_with_space (rstrip s) = false.
Proof.
  destruct s as [|a r]; simpl; intros H; [reflexivity|]. now rewrite H.
Qed.

Lemma ends_with_space_cons (a : ascii) (t : string) :
  t <> EmptyString -> ends_with_space (String a t) = ends_with_space t.
Proof. destruct t; [congruence | reflexivity]. Qed.

Lemma rstrip_no_trailing (s : string) : ends_with_space (rstrip s) = false.
Proof.
  induction s as [|a r IH]; [reflexivity|]. cbn [rstrip].
  destruct (is_space a && String.eqb (rstrip r) EmptyString) eqn:E; [reflexivity|].
  destruct (rstrip r) as [|c t]; [|exact IH].
  simpl in E. rewrite andb_true_r in E. exact E.
Qed.

Lemma starts_with_space_app (a b : string) :
  a <> EmptyString -> starts_with_space (a ++ b) = starts_with_space a.
Proof. destruct a; [congruence | reflexivity]. Qed.

Lemma ends_with_space_app (a b : string) :
  b <> EmptyString -> ends_with_space (a ++ b) = ends_with_space b.
Proof.
  intros Hb. induction a as [|x a IH]; [reflexivity|].
  cbn [append]. rewrite ends_with_space_cons; [exact IH|].
  destruct a; simpl; [exact Hb | discriminate].
Qed.

Lemma concat_trimmed (l : list string) :
  Forall (fun p => p <> EmptyString /\ starts_with_space p = false /\
                   ends_with_space p = false) l ->
  starts_with_space (String.concat "" l) = false /\
  ends_with_space (String.concat "" l) = false /\
  (l <> [] -> String.concat "" l <> EmptyString).
Proof.
  induction 1 as [|p l [Hp [Hs He]] Hl IH]; [simpl; auto|].
  destruct l as [|q l]; [simpl; auto|].
  destruct IH as [Hs' [He' Hne]].
  assert (Hq : String.concat "" (q :: l) <> EmptyString) by (apply Hne; discriminate).
  change (String.concat "" (p :: q :: l)) with (p ++ "" ++ String.concat "" (q :: l)).
  cbn [append].
  rewrite starts_with_space_app, ends_with_space_app by assumption.
  repeat split; auto. destruct p; [congruence | discriminate].
Qed.

(** No opinion that [extract_opinions] returns starts or ends with
    whitespace: [get_text(strip=True)] strips every text piece and drops
    the pieces left empty. *)
Theorem extract_opinions_trimmed (soup : node) :
  Forall (fun o => starts_with_space o = false /\ ends_with_space o = false)
         (extract_opinions soup).
Proof.
  unfold extract_opinions. destruct (find "div" (Some "opinions__list") soup) as [ol|];
    [|constructor].
  apply Forall_forall. intros o Ho. apply in_map_iff in Ho as [e [<- _]].
  unfold get_text_strip.
  edestruct concat_trimmed as [Hs [He _]]; [|split; [exact Hs | exact He]].
  apply Forall_forall. intros p Hp.
  apply filter_In in Hp as [Hp Hne]. apply in_map_iff in Hp as [s [<- _]].
  split; [|split].
  - intros E. rewrite E in Hne. discriminate.
  - apply rstrip_keeps_no_leading, lstrip_no_leading.
  - apply rstrip_no_trailing.
Qed.

(* ------------------------------------------------------------------ *)
(** ** The text pipeline's input stage *)

Lemma lower_char_punctuation (a : ascii) :
  is_punctuation (lower_char a) = is_punctuation a.
Proof. destruct a as [[] [] [] [] [] [] [] []]; reflexivity. Qed.

Lemma remove_punctuation_clean (s : string) :
  string_forall (fun a => negb (is_punctuation a)) (remove_punctuation s) = true.
Proof.
  induction s as [|a r IH]; simpl; [reflexivity|].
  destruct (is_punctuation a) eqn:E; simpl; [exact IH|]. now rewrite E, IH.
Qed.

Lemma lower_clean (s : string) :
  string_forall (fun a => negb (is_punctuation a)) s = true ->
  string_forall (fun a => negb (is_punctuation a)) (lower s) = true.
Proof.
  induction s as [|a r IH]; simpl; [reflexivity|].
  intros H. apply andb_prop in H as [Ha Hr].
  rewrite lower_char_punctuation, Ha, (IH Hr). reflexivity.
Qed.

(** [create_corpus] keeps one entry per opinion, over all hotels, and no
    entry contains a character of [string.punctuation]. *)
Theorem create_corpus_shape (data : snapshot) :
  List.length (create_corpus data) = list_sum (map (fun item => List.length (opinions item)) data) /\
  Forall (fun t => string_forall (fun a => negb (is_punctuation a)) t = true)
         (create_corpus data).
Proof.
  unfold create_corpus. split.
  - induction data as [|item data IH]; simpl; [reflexivity|].
    rewrite length_app, length_map, IH. reflexivity.
  - apply Forall_forall. intros t Ht. apply in_flat_map in Ht as [item [_ Ht]].
    apply in_map_iff in Ht as [o [<- _]]. apply lower_clean, remove_punctuation_clean.
Qed.

Lemma str_app_empty_r (a : string) : a ++ EmptyString = a.
Proof. induction a as [|x a IH]; simpl; [reflexivity | now rewrite IH]. Qed.

Lemma join_chars_id (t : string) : join_chars t = t.
Proof.
  unfold join_chars. induction t as [|a r IH]; [reflexivity|].
  destruct r as [|b r']; [reflexivity|].
  change (String a EmptyString ++ "" ++
          String.concat "" (map (fun a0 => String a0 EmptyString)
                                (list_ascii_of_string (String b r')))
          = String a (String b r')).
  rewrite IH. reflexivity.
Qed.

Lemma split_cons (c : ascii) (s : string) : exists p ps, Py.split c s = p :: ps.
Proof.
  induction s as [|a r [p [ps IH]]]; simpl; [eauto|].
  rewrite IH. destruct (ascii_dec a c); eauto.
Qed.

Lemma split_no_sep (c : ascii) (t : string) :
  Py.contains c t = false -> Py.split c t = [t].
Proof.
  induction t as [|a r IH]; simpl; [reflexivity|].
  destruct (ascii_dec a c); [discriminate|]. intros H. now rewrite (IH H).
Qed.

Lemma split_app (c : ascii) (t s : string) (p : string) (ps : list string) :
  Py.contains c t = false -> Py.split c s = p :: ps ->
  Py.split c (t ++ s) = (t ++ p) :: ps.
Proof.
  intros Ht Hs. induction t as [|a r IH]; simpl in *; [exact Hs|].
  destruct (ascii_dec a c); [discriminate|]. now rewrite (IH Ht).
Qed.

Lemma split_sep (c : ascii) (s : string) :
  Py.split c (String c s) = EmptyString :: Py.split c s.
Proof. simpl. destruct (ascii_dec c c); [reflexivity | congruence]. Qed.

Lemma split_join (c : ascii) (l : list string) :
  l <> [] -> Forall (fun t => Py.contains c t = false) l ->
  Py.split c (Py.join (String c EmptyString) l) = l.
Proof.
  intros Hne Hl. induction Hl as [|x l Hx Hl IH]; [congruence|].
  destruct l as [|y r]; [now apply split_no_sep|].
  change (Py.join (String c "") (x :: y :: r))
    with (x ++ String c (Py.join (String c "") (y :: r))).
  rewrite (split_app c x _ "" (y :: r) Hx).
  - now rewrite str_app_empty_r.
  - rewrite split_sep, IH; [reflexivity | discriminate].
Qed.

(** The file [write_tokens_to_file] writes reads back line by line as the
    tokens given, provided the list is not empty and no token holds a
    newline. *)
Theorem write_tokens_to_file_lines (tokens : list string) :
  tokens <> [] -> Forall (fun t => Py.contains (ascii_of_nat 10) t = false) tokens ->
  Py.split (ascii_of_nat 10) (write_tokens_to_file tokens) = tokens.
Proof.
  intros Hne Hl. unfold write_tokens_to_file.
  rewrite (map_ext join_chars (fun t => t) join_chars_id), map_id.
  now apply split_join.
Qed.

Lemma write_tokens_to_file_lines_witness :
  Py.split (ascii_of_nat 10) (write_tokens_to_file ["great"; "stay"]) = ["great"; "stay"].
Proof. apply write_tokens_to_file_lines; [discriminate | repeat constructor]. Defined.
